(** * proxy/dial.go: the credential-keyed client registry and [Dial]

    A shallow embedding of [proxy/dial.go].  The package-level variable
    [dialClient] (a map from credential blob to [*Client] next to a
    [sync.Mutex]) becomes an explicit state; the functions of the file
    become computations in a small state monad whose outcomes are a normal
    return, a Go run-time panic, or a goroutine blocked for ever on the
    mutex.  Every step that matters to the specification (lock, unlock, map
    allocation, map read, map write, each call into another package) is
    also appended to a log, so that statements about what an operation did,
    and in which order, can be made about the log. *)

From stdpp Require Import gmap strings list fin_maps.
From Stdlib Require Import ZArith.

Open Scope string_scope.
Open Scope list_scope.

(** ** Values of the Go program *)

(** A Go [error] value.  [fmt.Errorf] without a wrapping verb builds a plain
    string error; every other implementation of the interface is kept with
    a tag for its identity and the text its [Error] method returns. *)
Inductive error : Type :=
  | errorString (s : string)
  | foreignError (tag : N) (msg : string).

Definition Error (e : error) : string :=
  match e with
  | errorString s => s
  | foreignError _ msg => msg
  end.

(** [fmt.Errorf(format ++ "%v", err)] for a non-nil [err]. *)
Definition fmt_Errorf_v (format : string) (err : error) : error :=
  errorString (format ++ Error err)%string.

(** Modelled from the spec: [type Client struct] is declared in another
    file of the package.  Its attributes are the target port, the
    certificate-source handle, the optional connection-set handle and the
    optional custom network dialer, which are the four fields the
    composite literal of [Init] fills (a nil pointer or nil func is
    [None]). *)
Record Client (CertSource ConnSet Dialer : Type) : Type := mkClient {
  Port : Z;
  Certs : CertSource;
  Conns : option ConnSet;
  Dialer_ : option Dialer
}.
Arguments mkClient {CertSource ConnSet Dialer} _ _ _ _.
Arguments Port {CertSource ConnSet Dialer} _.
Arguments Certs {CertSource ConnSet Dialer} _.
Arguments Conns {CertSource ConnSet Dialer} _.
Arguments Dialer_ {CertSource ConnSet Dialer} _.

(** [const port = 3307] *)
Definition port : Z := 3307%Z.

(** The string constants of the file. *)
Definition sqlservice_admin_scope : string :=
  "https://www.googleapis.com/auth/sqlservice.admin".
Definition sqladmin_base_url : string :=
  "https://www.googleapis.com/sql/v1beta4/".
Definition init_failed_prefix : string :=
  "default proxy initialization failed; consider calling proxy.Init explicitly: ".

(** ** The other packages

    Everything [dial.go] calls outside itself: the oauth2 helpers of
    [golang.org/x/oauth2/google], [certs.NewCertSource], and the [Dial]
    method of [*Client] (declared in another file of the package).  Their
    types are opaque here and each call may read and change the outside
    [World] (network, clock, random source).  None of them can reach the
    unexported [dialClient], which is why they act on [World] alone. *)
Record Collaborators : Type := {
  World : Type;
  Context : Type;
  HttpClient : Type;
  JWTConfig : Type;
  CertSource : Type;
  ConnSet : Type;
  Dialer : Type;
  Conn : Type;
  context_Background : Context;
  (* google.DefaultClient(ctx, scope): client and error *)
  google_DefaultClient :
    Context -> string -> World -> HttpClient * option error * World;
  (* google.JWTConfigFromJSON(json, scope): config and error *)
  google_JWTConfigFromJSON :
    string -> string -> World -> JWTConfig * option error * World;
  (* cfg.Client(ctx), the method of jwt.Config *)
  Config_Client : JWTConfig -> Context -> World -> HttpClient * World;
  (* certs.NewCertSource(host, c, checkRegion) *)
  certs_NewCertSource :
    string -> HttpClient -> bool -> World -> CertSource * World;
  (* c.Dial(instance), the method of Client: connection and error *)
  Client_Dial :
    Client CertSource ConnSet Dialer -> string -> World ->
    option Conn * option error * World
}.

Section Proxy.

Variable E : Collaborators.

Abbreviation client := (Client (CertSource E) (ConnSet E) (Dialer E)).

(** ** State, log and outcomes *)

Inductive event : Type :=
  | EvLock
  | EvUnlock
  | EvMake
  | EvMapRead (k : string)
  | EvMapWrite (k : string) (v : client)
  | EvDefaultClient (scope : string)
  | EvJWTConfigFromJSON (json scope : string)
  | EvConfigClient (cfg : JWTConfig E)
  | EvNewCertSource (host : string) (auth : HttpClient E) (checkRegion : bool)
  | EvClientDial (v : client) (instance : string).

(** [var dialClient struct { c map[string]*Client; sync.Mutex }], the
    outside world and the log.  A nil map is [None].  Only non-nil
    pointers are ever stored in the map, so a nil [*Client] read from it
    is exactly a missing key. *)
Record state : Type := mkState {
  dc_c : option (gmap string client);
  dc_locked : bool;
  world : World E;
  log : list event
}.

Inductive outcome (A : Type) : Type :=
  | Ret (a : A) (s : state)
  | Panic (msg : string) (s : state)
  | Block (s : state).
Arguments Ret {A} _ _.
Arguments Panic {A} _ _.
Arguments Block {A} _.

Definition M (A : Type) : Type := state -> outcome A.

Definition ret {A} (a : A) : M A := fun s => Ret a s.

Definition bind {A B} (m : M A) (k : A -> M B) : M B :=
  fun s =>
    match m s with
    | Ret a s' => k a s'
    | Panic msg s' => Panic msg s'
    | Block s' => Block s'
    end.

Notation "x <- m ;; k" := (bind m (fun x => k))
  (at level 100, m at next level, right associativity).
Notation "m ;;; k" := (bind m (fun _ => k))
  (at level 100, right associativity).

Definition emit (ev : event) (s : state) : state :=
  mkState (dc_c s) (dc_locked s) (world s) (log s ++ [ev]).

Definition panic {A} (msg : string) : M A := fun s => Panic msg s.

(** [dialClient.Lock()]: a second [Lock] on a held [sync.Mutex] never
    returns. *)
Definition Lock : M unit :=
  fun s =>
    if dc_locked s then Block s
    else Ret tt (emit EvLock (mkState (dc_c s) true (world s) (log s))).

(** [dialClient.Unlock()] *)
Definition Unlock : M unit :=
  fun s =>
    if dc_locked s
    then Ret tt (emit EvUnlock (mkState (dc_c s) false (world s) (log s)))
    else Panic "sync: unlock of unlocked mutex" s.

(** [if dialClient.c == nil { dialClient.c = make(map[string]*Client) }] *)
Definition make_if_nil : M unit :=
  fun s =>
    match dc_c s with
    | None => Ret tt (emit EvMake
                        (mkState (Some ∅) (dc_locked s) (world s) (log s)))
    | Some _ => Ret tt s
    end.

(** [dialClient.c[k]] as an rvalue: the zero value (nil) on a missing key
    and on a nil map. *)
Definition map_read (k : string) : M (option client) :=
  fun s =>
    Ret (match dc_c s with Some m => m !! k | None => None end)
        (emit (EvMapRead k) s).

(** [dialClient.c[k] = &v]: assignment to an entry of a nil map panics. *)
Definition map_write (k : string) (v : client) : M unit :=
  fun s =>
    match dc_c s with
    | None => Panic "assignment to entry in nil map" s
    | Some m => Ret tt (emit (EvMapWrite k v)
                          (mkState (Some (<[k := v]> m)) (dc_locked s)
                                   (world s) (log s)))
    end.

(** A call into another package: log it, run it on the world. *)
Definition call {A} (ev : event) (f : World E -> A * World E) : M A :=
  fun s =>
    let '(a, w) := f (world s) in
    Ret a (mkState (dc_c s) (dc_locked s) w (log s ++ [ev])).

(** ** The functions of dial.go *)

(** [Init(auth, connset, dialer, credential_json)] *)
Definition Init (auth : HttpClient E) (connset : option (ConnSet E))
    (dialer : option (Dialer E)) (credential_json : string) : M unit :=
  Lock ;;;
  make_if_nil ;;;
  cs <- call (EvNewCertSource sqladmin_base_url auth true)
             (certs_NewCertSource E sqladmin_base_url auth true) ;;
  map_write credential_json (mkClient port cs connset dialer) ;;;
  Unlock.

(** [func InitClient(c Client, credential_json string)] *)
Definition InitClient (c : client) (credential_json : string) : M unit :=
  Lock ;;;
  map_write credential_json c ;;;
  Unlock.

(** [func InitDefault(ctx context.Context) error] *)
Definition InitDefault (ctx : Context E) : M (option error) :=
  r <- call (EvDefaultClient sqlservice_admin_scope)
            (google_DefaultClient E ctx sqlservice_admin_scope) ;;
  match r with
  | (_, Some err) => ret (Some err)
  | (cl, None) => Init cl None None "" ;;; ret None
  end.

(** [func InitFromJson(ctx context.Context, credential_json string) error] *)
Definition InitFromJson (ctx : Context E) (credential_json : string)
    : M (option error) :=
  r <- call (EvJWTConfigFromJSON credential_json sqlservice_admin_scope)
            (google_JWTConfigFromJSON E credential_json
               sqlservice_admin_scope) ;;
  match r with
  | (_, Some err) => ret (Some err)
  | (cfg, None) =>
      cl <- call (EvConfigClient cfg)
                 (Config_Client E cfg ctx) ;;
      Init cl None None credential_json ;;;
      ret None
  end.

(** [c.Dial(instance)] on a [*Client] read from the map: the method reads
    the fields of its receiver, so a nil receiver is a nil-pointer panic. *)
Definition method_Dial (c : option client) (instance : string)
    : M (option (Conn E) * option error) :=
  match c with
  | None => panic "invalid memory address or nil pointer dereference"
  | Some v => call (EvClientDial v instance) (Client_Dial E v instance)
  end.

(** [func Dial(instance string, credential_json string) (net.Conn, error)] *)
Definition Dial (instance credential_json : string)
    : M (option (Conn E) * option error) :=
  Lock ;;;
  make_if_nil ;;;
  c <- map_read credential_json ;;
  Unlock ;;;
  match c with
  | Some _ => method_Dial c instance
  | None =>
      err <- InitFromJson (context_Background E) credential_json ;;
      match err with
      | Some e => ret (None, Some (fmt_Errorf_v init_failed_prefix e))
      | None =>
          Lock ;;;
          c' <- map_read credential_json ;;
          Unlock ;;;
          method_Dial c' instance
      end
  end.

(** ** Observations on a state *)

(** The spec's [lookup]: the client cached under [k], if any. *)
Definition lookup_client (k : string) (s : state) : option client :=
  match dc_c s with
  | Some m => m !! k
  | None => None
  end.

(** The entries of a map value; a nil map has none. *)
Definition slots (m : option (gmap string client)) : gmap string client :=
  match m with
  | Some m' => m'
  | None => ∅
  end.

(** The entries of the registry. *)
Definition entries (s : state) : gmap string client := slots (dc_c s).

(** What the allocation guard logs: one [EvMake] on a nil map. *)
Definition alloc_events (m : option (gmap string client)) : list event :=
  match m with
  | Some _ => []
  | None => [EvMake]
  end.

(** The state an outcome leaves behind. *)
Definition after {A} (o : outcome A) : state :=
  match o with
  | Ret _ s => s
  | Panic _ s => s
  | Block s => s
  end.

(** The same state with an empty log, to read off what one run appends. *)
Definition fresh (s : state) : state :=
  mkState (dc_c s) (dc_locked s) (world s) [].

(** The state of a process that has not touched the package yet. *)
Definition start (w : World E) : state := mkState None false w [].

(** ** Sequences of calls of the exported functions *)

Inductive op : Type :=
  | OpDial (instance credential_json : string)
  | OpInit (auth : HttpClient E) (connset : option (ConnSet E))
           (dialer : option (Dialer E)) (credential_json : string)
  | OpInitClient (c : client) (credential_json : string)
  | OpInitDefault (ctx : Context E)
  | OpInitFromJson (ctx : Context E) (credential_json : string).

(** Run one call and keep the error it returns, if any. *)
Definition exec (o : op) : M (option error) :=
  match o with
  | OpDial i k => r <- Dial i k ;; ret (snd r)
  | OpInit a cs d k => Init a cs d k ;;; ret None
  | OpInitClient c k => InitClient c k ;;; ret None
  | OpInitDefault ctx => InitDefault ctx
  | OpInitFromJson ctx k => InitFromJson ctx k
  end.

(** The key under which a registration function installs its client. *)
Definition target (o : op) : option string :=
  match o with
  | OpDial _ _ => None
  | OpInit _ _ _ k => Some k
  | OpInitClient _ k => Some k
  | OpInitDefault _ => Some ""
  | OpInitFromJson _ k => Some k
  end.

(** The one key a call can write: its credential, and the empty key for
    [InitDefault]. *)
Definition key_of (o : op) : string :=
  match o with
  | OpDial _ k => k
  | OpInit _ _ _ k => k
  | OpInitClient _ k => k
  | OpInitDefault _ => ""
  | OpInitFromJson _ k => k
  end.

(** What is known of a client written by a call: [InitClient] stores its
    argument; [Init] builds one on the fixed port around its arguments;
    the other three go through [Init] with no connection set and no
    dialer. *)
Definition built_by (o : op) (v : client) : Prop :=
  match o with
  | OpInitClient c _ => v = c
  | OpInit _ cs d _ => Port v = port /\ Conns v = cs /\ Dialer_ v = d
  | _ => Port v = port /\ Conns v = None /\ Dialer_ v = None
  end.

(** The two functions that call the identity provider before taking the
    lock. *)
Definition is_exchange_op (o : op) : bool :=
  match o with
  | OpInitDefault _ | OpInitFromJson _ _ => true
  | _ => false
  end.

Definition is_InitClient (o : op) : bool :=
  match o with
  | OpInitClient _ _ => true
  | _ => false
  end.

(** The lock is free and the map is allocated. *)
Definition ready (s : state) : bool :=
  negb (dc_locked s) && match dc_c s with Some _ => true | None => false end.

(** Every call of the sequence returns: none panics, none blocks. *)
Fixpoint completes (ops : list op) (s : state) : bool :=
  match ops with
  | [] => true
  | o :: ops' =>
      match exec o s with
      | Ret _ s' => completes ops' s'
      | Panic _ _ => false
      | Block _ => false
      end
  end.

(** What a call can do to the registry: nothing, allocate the map, or
    allocate it if needed and set one entry (logged as a map write). *)
Inductive effect (s s' : state) : Prop :=
  | effect_none l :
      dc_c s' = dc_c s -> log s' = log s ++ l ->
      (forall k v, ~ In (EvMapWrite k v) l) ->
      effect s s'
  | effect_alloc l :
      dc_c s' = Some (slots (dc_c s)) -> log s' = log s ++ l ->
      (forall k v, ~ In (EvMapWrite k v) l) ->
      effect s s'
  | effect_put k v l1 l2 :
      dc_c s' = Some (<[k := v]> (slots (dc_c s))) ->
      log s' = log s ++ l1 ++ EvMapWrite k v :: l2 ->
      (forall k' v', ~ In (EvMapWrite k' v') (l1 ++ l2)) ->
      effect s s'.

(** One goroutine calling the functions one after the other; a panic or a
    blocked [Lock] ends the sequence. *)
Fixpoint run (ops : list op) (s : state) : state :=
  match ops with
  | [] => s
  | o :: ops' =>
      match exec o s with
      | Ret _ s' => run ops' s'
      | Panic _ s' => s'
      | Block s' => s'
      end
  end.

(** What one call appends to the log. *)
Definition trace (o : op) (s : state) : list event :=
  log (after (exec o (fresh s))).

(** ** Reading the log *)

(** Calls of the identity provider (the oauth2 package). *)
Definition is_exchange (ev : event) : bool :=
  match ev with
  | EvDefaultClient _ | EvJWTConfigFromJSON _ _ | EvConfigClient _ => true
  | _ => false
  end.

(** Construction of the certificate source. *)
Definition is_certs (ev : event) : bool :=
  match ev with
  | EvNewCertSource _ _ _ => true
  | _ => false
  end.

(** The delegated dial of a resolved client. *)
Definition is_dial (ev : event) : bool :=
  match ev with
  | EvClientDial _ _ => true
  | _ => false
  end.

(** Any call into a collaborator. *)
Definition is_call (ev : event) : bool :=
  is_exchange ev || is_certs ev || is_dial ev.

(** A single read or insert of the map. *)
Definition is_access (ev : event) : bool :=
  match ev with
  | EvMapRead _ | EvMapWrite _ _ => true
  | _ => false
  end.

(** The critical sections of a log: for each [Lock] that is followed by
    its [Unlock], the events in between.  [cur] is the section being read,
    [None] while the lock is free. *)
Fixpoint sections_from (cur : option (list event)) (l : list event)
    : list (list event) :=
  match l with
  | [] => []
  | EvLock :: l' => sections_from (Some []) l'
  | EvUnlock :: l' =>
      match cur with
      | Some sec => sec :: sections_from None l'
      | None => sections_from None l'
      end
  | ev :: l' =>
      match cur with
      | Some sec => sections_from (Some (sec ++ [ev])%list) l'
      | None => sections_from None l'
      end
  end.

Definition sections (l : list event) : list (list event) :=
  sections_from None l.

(** Every event logged while the lock is held, whether or not the lock is
    released afterwards. *)
Fixpoint held_from (held : bool) (l : list event) : list event :=
  match l with
  | [] => []
  | EvLock :: l' => held_from true l'
  | EvUnlock :: l' => held_from false l'
  | ev :: l' => if held then ev :: held_from true l' else held_from false l'
  end.

Definition held_events (l : list event) : list event := held_from false l.

(** The lock discipline as the spec words it: nothing but the map
    allocation and one map access inside, no collaborator call. *)
Definition short_section (sec : list event) : bool :=
  forallb (fun ev => negb (is_call ev)) sec
  && (length (filter (fun ev => is_access ev = true) sec) =? 1)%nat.

(** The lock discipline of the code: as above, except that the
    certificate source may be constructed inside. *)
Definition guarded_section (sec : list event) : bool :=
  forallb (fun ev => negb (is_exchange ev || is_dial ev)) sec
  && (length (filter (fun ev => is_access ev = true) sec) =? 1)%nat
  && (length (filter (fun ev => is_certs ev = true) sec) <=? 1)%nat.

End Proxy.

Arguments Ret {E A} _ _.
Arguments Panic {E A} _ _.
Arguments Block {E A} _.
Arguments EvLock {E}.
Arguments EvUnlock {E}.
Arguments EvMake {E}.
Arguments EvMapRead {E} _.
Arguments EvMapWrite {E} _ _.
Arguments EvDefaultClient {E} _.
Arguments EvJWTConfigFromJSON {E} _ _.
Arguments EvConfigClient {E} _.
Arguments EvNewCertSource {E} _ _ _.
Arguments EvClientDial {E} _ _.
Arguments mkState {E} _ _ _ _.
Arguments dc_c {E} _.
Arguments dc_locked {E} _.
Arguments world {E} _.
Arguments log {E} _.
Arguments after {E A} _.
Arguments fresh {E} _.
Arguments lookup_client {E} _ _.
Arguments entries {E} _.
Arguments slots {E} _.
Arguments alloc_events {E} _.
Arguments run {E} _ _.
Arguments exec {E} _ _.
Arguments trace {E} _ _.
Arguments sections {E} _.
Arguments held_events {E} _.
Arguments target {E} _.
Arguments key_of {E} _.
Arguments built_by {E} _ _.
Arguments is_InitClient {E} _.
Arguments is_exchange_op {E} _.
Arguments ready {E} _.
Arguments completes {E} _ _.
Arguments effect {E} _ _.
Arguments effect_none {E} _ _ _ _ _ _.
Arguments effect_alloc {E} _ _ _ _ _ _.
Arguments effect_put {E} _ _ _ _ _ _ _ _ _.
Arguments short_section {E} _.
Arguments guarded_section {E} _.
Arguments is_exchange {E} _.
Arguments is_call {E} _.
Arguments is_certs {E} _.
Arguments is_dial {E} _.
Arguments is_access {E} _.
Arguments Init {E} _ _ _ _ _.
Arguments InitClient {E} _ _ _.
Arguments InitDefault {E} _ _.
Arguments InitFromJson {E} _ _ _.
Arguments Dial {E} _ _ _.
Arguments OpDial {E} _ _.
Arguments OpInit {E} _ _ _ _.
Arguments OpInitClient {E} _ _.
Arguments OpInitDefault {E} _.
Arguments OpInitFromJson {E} _ _.

(** ** A concrete set of collaborators

    Stand-ins used to run the code on concrete inputs.  The world counts
    the calls made so far.  A credential blob parses when it starts with an
    opening brace; a client can dial every instance but the empty one. *)
Module Stub.

Definition parses (json : string) : bool := String.prefix "{" json.

Definition parse_error : error :=
  foreignError 1 "unexpected end of JSON input".

Definition dial_error : error :=
  foreignError 2 "invalid instance name".

Definition E : Collaborators := {|
  World := nat;
  Context := unit;
  HttpClient := string;
  JWTConfig := string;
  CertSource := string;
  ConnSet := unit;
  Dialer := unit;
  Conn := string;
  context_Background := tt;
  google_DefaultClient := fun _ _ w => ("ambient", None, S w);
  google_JWTConfigFromJSON := fun json _ w =>
    if parses json then (json, None, S w) else ("", Some parse_error, S w);
  Config_Client := fun cfg _ w => (cfg, S w);
  certs_NewCertSource := fun host auth _ w => ((host ++ auth)%string, S w);
  Client_Dial := fun _ instance w =>
    match instance with
    | "" => (None, Some dial_error, S w)
    | _ => (Some instance, None, S w)
    end
|}.

Definition custom : Client string unit unit :=
  mkClient 5432%Z "custom" None None.

(** A process that has called [Init] for one key. *)
Definition initialised : state E :=
  run [OpInit (E:=E) "a" None None "k0"] (start E 0).

(** The same process after [InitClient] has put [custom] under another
    key. *)
Definition registered : state E :=
  run [OpInitClient (E:=E) custom "k1"] initialised.

(** A fresh process after a failed [InitFromJson] of a blob that does not
    parse. *)
Definition after_bad_json : state E :=
  mkState (E:=E) None false 1%nat
    [EvJWTConfigFromJSON (E:=E) "bad-json" sqlservice_admin_scope].

(** A process whose first call was [InitClient]: it panicked with the
    lock held. *)
Definition poisoned : state E :=
  after (InitClient (E:=E) custom "k1" (start E 0)).

(** A process after a successful [InitFromJson], and one after a
    successful [InitDefault]. *)
Definition after_json : state E :=
  after (InitFromJson (E:=E) tt "{k}" (start E 0)).

Definition after_default : state E :=
  after (InitDefault (E:=E) tt (start E 0)).

(** The client [Init] builds in these runs for the auth client ["b"]. *)
Definition built_b : Client string unit unit :=
  mkClient 3307%Z "https://www.googleapis.com/sql/v1beta4/b" None None.

(** Two later calls, the second of which overwrites that key. *)
Definition later_calls : list (op E) :=
  [OpDial (E:=E) "p:r:i" "{k}"; OpInit (E:=E) "b" None None "k1"].

End Stub.

(** * Properties *)

Section ProxyProofs.

Context {E : Collaborators}.

Abbreviation client := (Client (CertSource E) (ConnSet E) (Dialer E)).

Implicit Types (s : state E) (k instance : string) (v : client).

(** Unfold one layer of the monad and of the primitive steps. *)
Ltac unfold_code :=
  unfold Dial, InitFromJson, InitDefault, InitClient, Init, method_Dial,
    bind, ret, call, panic, Lock, Unlock, make_if_nil, map_read, map_write,
    emit in *;
  cbn [dc_c dc_locked world log] in *.

(** Put a log into the shape [lg ++ [e1; ...; en]]. *)
Ltac log_shape :=
  repeat (progress (rewrite <- ?app_assoc; cbn [app])); try reflexivity.

(** Split on the results of the collaborator calls met in the goal. *)
Ltac destruct_calls :=
  repeat (match goal with
          | |- context [google_JWTConfigFromJSON ?E' ?k ?sc ?w] =>
              destruct (google_JWTConfigFromJSON E' k sc w) as [[? [?|]] ?]
          | |- context [google_DefaultClient ?E' ?c ?sc ?w] =>
              destruct (google_DefaultClient E' c sc w) as [[? [?|]] ?]
          | |- context [Config_Client ?E' ?c ?x ?w] =>
              destruct (Config_Client E' c x w) as [? ?]
          | |- context [certs_NewCertSource ?E' ?h ?a ?b ?w] =>
              destruct (certs_NewCertSource E' h a b w) as [? ?]
          | |- context [Client_Dial ?E' ?v ?i ?w] =>
              destruct (Client_Dial E' v i w) as [? ?]
          end; cbv beta iota zeta).

(** No map write among the listed events. *)
Ltac no_write :=
  let H := fresh "H" in
  intros ? ? H; cbn in H;
  repeat (destruct H as [H|H]; [discriminate H|]); exact H.

(** ** What each function computes on a state whose lock is free *)

Lemma Init_free auth connset dialer k m w lg :
  Init auth connset dialer k (mkState m false w lg) =
  let '(cs, w') := certs_NewCertSource E sqladmin_base_url auth true w in
  let v := mkClient port cs connset dialer in
  Ret tt (mkState (Some (<[k := v]> (slots m))) false w'
            (lg ++ EvLock :: alloc_events m ++
               [EvNewCertSource sqladmin_base_url auth true;
                EvMapWrite k v; EvUnlock])).
Proof.
  unfold_code.
  destruct m as [m|]; cbn;
    destruct (certs_NewCertSource E sqladmin_base_url auth true w) as [cs w'];
    cbn; f_equal; f_equal; log_shape.
Qed.

Lemma InitClient_free v k m w lg :
  InitClient v k (mkState (Some m) false w lg) =
  Ret tt (mkState (Some (<[k := v]> m)) false w
            (lg ++ [EvLock; EvMapWrite k v; EvUnlock])).
Proof. unfold_code. cbn. f_equal. f_equal. log_shape. Qed.

Lemma InitClient_nil v k w lg :
  InitClient v k (mkState None false w lg) =
  Panic "assignment to entry in nil map"
        (mkState None true w (lg ++ [EvLock])).
Proof. unfold_code. reflexivity. Qed.

Lemma InitFromJson_free ctx k m w lg :
  InitFromJson ctx k (mkState m false w lg) =
  match google_JWTConfigFromJSON E k sqlservice_admin_scope w with
  | (_, Some err, w1) =>
      Ret (Some err)
          (mkState m false w1
             (lg ++ [EvJWTConfigFromJSON k sqlservice_admin_scope]))
  | (cfg, None, w1) =>
      let '(cl, w2) := Config_Client E cfg ctx w1 in
      let '(cs, w3) := certs_NewCertSource E sqladmin_base_url cl true w2 in
      let v := mkClient port cs None None in
      Ret None
          (mkState (Some (<[k := v]> (slots m))) false w3
             (lg ++ [EvJWTConfigFromJSON k sqlservice_admin_scope;
                     EvConfigClient cfg; EvLock] ++
                alloc_events m ++
                [EvNewCertSource sqladmin_base_url cl true;
                 EvMapWrite k v; EvUnlock]))
  end.
Proof.
  unfold InitFromJson, bind at 1, call at 1. cbn [world dc_c dc_locked log].
  destruct (google_JWTConfigFromJSON E k sqlservice_admin_scope w)
    as [[cfg [err|]] w1]; [reflexivity|].
  unfold bind at 1, call at 1. cbn [world dc_c dc_locked log].
  destruct (Config_Client E cfg ctx w1) as [cl w2].
  unfold bind at 1. rewrite Init_free.
  destruct (certs_NewCertSource E sqladmin_base_url cl true w2) as [cs w3].
  unfold ret. f_equal. f_equal. log_shape.
Qed.

Lemma InitDefault_free ctx m w lg :
  InitDefault ctx (mkState m false w lg) =
  match google_DefaultClient E ctx sqlservice_admin_scope w with
  | (_, Some err, w1) =>
      Ret (Some err)
          (mkState m false w1 (lg ++ [EvDefaultClient sqlservice_admin_scope]))
  | (cl, None, w1) =>
      let '(cs, w2) := certs_NewCertSource E sqladmin_base_url cl true w1 in
      let v := mkClient port cs None None in
      Ret None
          (mkState (Some (<["" := v]> (slots m))) false w2
             (lg ++ [EvDefaultClient sqlservice_admin_scope; EvLock] ++
                alloc_events m ++
                [EvNewCertSource sqladmin_base_url cl true;
                 EvMapWrite "" v; EvUnlock]))
  end.
Proof.
  unfold InitDefault, bind at 1, call at 1. cbn [world dc_c dc_locked log].
  destruct (google_DefaultClient E ctx sqlservice_admin_scope w)
    as [[cl [err|]] w1]; [reflexivity|].
  unfold bind at 1. rewrite Init_free.
  destruct (certs_NewCertSource E sqladmin_base_url cl true w1) as [cs w2].
  unfold ret. f_equal. f_equal. log_shape.
Qed.

Lemma Dial_hit instance k v m w lg :
  m !! k = Some v ->
  Dial instance k (mkState (Some m) false w lg) =
  let '(r, w') := Client_Dial E v instance w in
  Ret r (mkState (Some m) false w'
           (lg ++ [EvLock; EvMapRead k; EvUnlock; EvClientDial v instance])).
Proof.
  intros Hk. unfold_code. cbn. rewrite Hk. cbn.
  destruct (Client_Dial E v instance w) as [r w'].
  f_equal. f_equal. log_shape.
Qed.

Lemma Dial_miss instance k m w lg :
  (slots m) !! k = None ->
  Dial instance k (mkState m false w lg) =
  let pre := (lg ++ EvLock :: alloc_events m ++
                [EvMapRead k; EvUnlock;
                 EvJWTConfigFromJSON k sqlservice_admin_scope])%list in
  match google_JWTConfigFromJSON E k sqlservice_admin_scope w with
  | (_, Some err, w1) =>
      Ret (None, Some (fmt_Errorf_v init_failed_prefix err))
          (mkState (Some (slots m)) false w1 pre)
  | (cfg, None, w1) =>
      let '(cl, w2) := Config_Client E cfg (context_Background E) w1 in
      let '(cs, w3) := certs_NewCertSource E sqladmin_base_url cl true w2 in
      let v := mkClient port cs None None in
      let '(r, w4) := Client_Dial E v instance w3 in
      Ret r (mkState (Some (<[k := v]> (slots m))) false w4
               (pre ++ [EvConfigClient cfg; EvLock;
                        EvNewCertSource sqladmin_base_url cl true;
                        EvMapWrite k v; EvUnlock;
                        EvLock; EvMapRead k; EvUnlock;
                        EvClientDial v instance]))
  end.
Proof.
  intros Hk.
  assert (Hinit := InitFromJson_free (context_Background E) k (Some (slots m)) w).
  unfold Dial.
  unfold bind at 1, Lock at 1. cbn [dc_locked dc_c world log].
  unfold bind at 1, make_if_nil at 1, emit. cbn [dc_locked dc_c world log].
  destruct m as [m|]; cbn [slots alloc_events] in *.
  - unfold bind at 1, map_read at 1, emit. cbn [dc_locked dc_c world log].
    rewrite Hk.
    unfold bind at 1, Unlock at 1, emit. cbn [dc_locked dc_c world log].
    unfold bind at 1. rewrite Hinit.
    destruct (google_JWTConfigFromJSON E k sqlservice_admin_scope w)
      as [[cfg [err|]] w1].
    + unfold ret. f_equal. f_equal. log_shape.
    + destruct (Config_Client E cfg (context_Background E) w1) as [cl w2].
      destruct (certs_NewCertSource E sqladmin_base_url cl true w2) as [cs w3].
      unfold_code. cbn. rewrite lookup_insert_eq. cbn.
      destruct (Client_Dial E _ instance w3) as [r w4].
      f_equal. f_equal. log_shape.
  - unfold bind at 1, map_read at 1, emit. cbn [dc_locked dc_c world log].
    rewrite lookup_empty.
    unfold bind at 1, Unlock at 1, emit. cbn [dc_locked dc_c world log].
    unfold bind at 1. rewrite Hinit.
    destruct (google_JWTConfigFromJSON E k sqlservice_admin_scope w)
      as [[cfg [err|]] w1].
    + unfold ret. f_equal. f_equal. log_shape.
    + destruct (Config_Client E cfg (context_Background E) w1) as [cl w2].
      destruct (certs_NewCertSource E sqladmin_base_url cl true w2) as [cs w3].
      unfold_code. cbn. rewrite lookup_insert_eq. cbn.
      destruct (Client_Dial E _ instance w3) as [r w4].
      f_equal. f_equal. log_shape.
Qed.

(** With the lock already held every exported function blocks at once. *)
Lemma exec_held (o : op E) m w lg :
  exec o (mkState m true w lg) =
  match o with
  | OpInitDefault ctx =>
      match google_DefaultClient E ctx sqlservice_admin_scope w with
      | (_, Some err, w1) =>
          Ret (Some err)
              (mkState m true w1
                 (lg ++ [EvDefaultClient sqlservice_admin_scope]))
      | (_, None, w1) =>
          Block (mkState m true w1
                   (lg ++ [EvDefaultClient sqlservice_admin_scope]))
      end
  | OpInitFromJson ctx k =>
      match google_JWTConfigFromJSON E k sqlservice_admin_scope w with
      | (_, Some err, w1) =>
          Ret (Some err)
              (mkState m true w1
                 (lg ++ [EvJWTConfigFromJSON k sqlservice_admin_scope]))
      | (cfg, None, w1) =>
          let '(_, w2) := Config_Client E cfg ctx w1 in
          Block (mkState m true w2
                   (lg ++ [EvJWTConfigFromJSON k sqlservice_admin_scope;
                           EvConfigClient cfg]))
      end
  | _ => Block (mkState m true w lg)
  end.
Proof.
  destruct o as [i k|a cs d k|c k|ctx|ctx k]; cbn [exec]; unfold_code;
    cbn; try reflexivity.
  - destruct (google_DefaultClient E ctx sqlservice_admin_scope w)
      as [[cl [err|]] w1]; reflexivity.
  - destruct (google_JWTConfigFromJSON E k sqlservice_admin_scope w)
      as [[cfg [err|]] w1]; [reflexivity|]. cbn.
    destruct (Config_Client E cfg ctx w1) as [cl w2]. cbn.
    f_equal. f_equal. log_shape.
Qed.

(** [Dial] returns or blocks; it has no run-time panic. *)
Lemma Dial_no_panic instance k s msg s' : Dial instance k s <> Panic msg s'.
Proof.
  destruct s as [m [|] w lg].
  - unfold_code. cbn. discriminate.
  - destruct (slots m !! k) as [v|] eqn:Hk.
    + destruct m as [m|]; cbn [slots] in Hk; [|by rewrite lookup_empty in Hk].
      rewrite (Dial_hit _ _ _ _ _ _ Hk).
      destruct (Client_Dial E v instance w) as [r w']. discriminate.
    + rewrite (Dial_miss _ _ _ _ _ Hk). cbn zeta.
      destruct (google_JWTConfigFromJSON E k sqlservice_admin_scope w)
        as [[cfg [err|]] w1]; [discriminate|].
      destruct (Config_Client E cfg (context_Background E) w1) as [cl w2].
      destruct (certs_NewCertSource E sqladmin_base_url cl true w2) as [cs w3].
      destruct (Client_Dial E _ instance w3) as [r w4]. discriminate.
Qed.

(** Every call is one of the three effects. *)
Lemma exec_effect (o : op E) s : effect s (after (exec o s)).
Proof.
  destruct s as [m [|] w lg].
  - rewrite exec_held.
    destruct o as [i k|a cs d k|c k|ctx|ctx k]; destruct_calls; cbn [after];
      (eapply effect_none; cbn [dc_c log]; [reflexivity| |]);
      first [ symmetry; apply app_nil_r | reflexivity | no_write ].
  - destruct o as [i k|a cs d k|c k|ctx|ctx k]; cbn [exec];
      [unfold bind at 1|unfold bind at 1|unfold bind at 1| |].
    + destruct (slots m !! k) as [v|] eqn:Hk.
      * destruct m as [m|]; cbn [slots] in Hk; [|by rewrite lookup_empty in Hk].
        rewrite (Dial_hit _ _ _ _ _ _ Hk). destruct_calls. cbn [after ret].
        eapply effect_none; cbn; try reflexivity. no_write.
      * rewrite (Dial_miss _ _ _ _ _ Hk). destruct_calls; cbn [after ret].
        -- eapply effect_alloc; cbn; try reflexivity.
           destruct m; no_write.
        -- eapply (effect_put _ _ k _
                     (EvLock :: alloc_events m ++
                        [EvMapRead k; EvUnlock;
                         EvJWTConfigFromJSON k sqlservice_admin_scope;
                         EvConfigClient _; EvLock;
                         EvNewCertSource sqladmin_base_url _ true])
                     [EvUnlock; EvLock; EvMapRead k; EvUnlock;
                      EvClientDial _ i]); cbn [dc_c log].
           ++ reflexivity.
           ++ log_shape.
           ++ destruct m; no_write.
    + rewrite Init_free. destruct_calls. cbn [after ret].
      eapply (effect_put _ _ k _
                (EvLock :: alloc_events m ++
                   [EvNewCertSource sqladmin_base_url a true]) [EvUnlock]);
        cbn [dc_c log].
      * reflexivity.
      * log_shape.
      * destruct m; no_write.
    + destruct m as [m|].
      * rewrite InitClient_free. cbn [after ret].
        eapply (effect_put _ _ k c [EvLock] [EvUnlock]); cbn; try reflexivity.
        no_write.
      * rewrite InitClient_nil. cbn [after].
        eapply effect_none; cbn; try reflexivity. no_write.
    + rewrite InitDefault_free. destruct_calls; cbn [after].
      * eapply effect_none; cbn; try reflexivity. no_write.
      * eapply (effect_put _ _ "" _
                  (EvDefaultClient sqlservice_admin_scope :: EvLock ::
                     alloc_events m ++
                     [EvNewCertSource sqladmin_base_url _ true]) [EvUnlock]);
          cbn [dc_c log].
        -- reflexivity.
        -- log_shape.
        -- destruct m; no_write.
    + rewrite InitFromJson_free. destruct_calls; cbn [after].
      * eapply effect_none; cbn; try reflexivity. no_write.
      * eapply (effect_put _ _ k _
                  (EvJWTConfigFromJSON k sqlservice_admin_scope ::
                     EvConfigClient _ :: EvLock ::
                     alloc_events m ++
                     [EvNewCertSource sqladmin_base_url _ true]) [EvUnlock]);
          cbn [dc_c log].
        -- reflexivity.
        -- log_shape.
        -- destruct m; no_write.
Qed.

(** ** Consequences of [exec_effect] *)

Lemma lookup_client_entries k s : lookup_client k s = entries s !! k.
Proof.
  unfold lookup_client, entries, slots.
  destruct (dc_c s); [reflexivity|]. symmetry. apply lookup_empty.
Qed.

Lemma effect_entries s s' :
  effect s s' ->
  entries s' = entries s \/ exists k v, entries s' = <[k := v]> (entries s).
Proof.
  unfold entries. intros [l Hc _ _|l Hc _ _|k v l1 l2 Hc _ _]; rewrite Hc; eauto.
Qed.

Lemma effect_log s s' : effect s s' -> exists l, log s' = log s ++ l.
Proof. intros [l _ Hl _|l _ Hl _|k v l1 l2 _ Hl _]; eauto. Qed.

Lemma effect_keeps k v s s' :
  effect s s' ->
  lookup_client k s = Some v ->
  exists v',
    lookup_client k s' = Some v' /\
    (v' = v \/ exists l, log s' = log s ++ l /\ In (EvMapWrite k v') l).
Proof.
  rewrite !lookup_client_entries. unfold entries.
  intros [l Hc Hl _|l Hc Hl _|k0 v0 l1 l2 Hc Hl _] Hk; rewrite Hc.
  - eauto.
  - eauto.
  - cbn [slots]. destruct (decide (k0 = k)) as [->|Hne].
    + exists v0. rewrite lookup_insert_eq. split; [reflexivity|].
      right. exists (l1 ++ EvMapWrite k v0 :: l2). split; [exact Hl|].
      apply in_or_app. right. left. reflexivity.
    + exists v. rewrite lookup_insert_ne by exact Hne. eauto.
Qed.

Lemma run_log (ops : list (op E)) :
  forall s, exists l, log (run ops s) = log s ++ l.
Proof.
  induction ops as [|o ops IH]; intros s; cbn [run].
  - exists []. symmetry. apply app_nil_r.
  - destruct (effect_log _ _ (exec_effect o s)) as [l Hl].
    destruct (exec o s) as [r s1|msg s1|s1]; cbn [after] in Hl; eauto.
    destruct (IH s1) as [l' Hl']. exists (l ++ l').
    rewrite Hl', Hl. symmetry. apply app_assoc.
Qed.

Lemma run_keeps k (ops : list (op E)) :
  forall s v,
    lookup_client k s = Some v ->
    exists v',
      lookup_client k (run ops s) = Some v' /\
      (v' = v \/ exists l, log (run ops s) = log s ++ l /\ In (EvMapWrite k v') l).
Proof.
  induction ops as [|o ops IH]; intros s v Hk; cbn [run].
  - eauto.
  - destruct (effect_keeps k v _ _ (exec_effect o s) Hk) as (v1 & Hk1 & Hv1).
    destruct (effect_log _ _ (exec_effect o s)) as [l Hl].
    destruct (exec o s) as [r s1|msg s1|s1]; cbn [after] in *; eauto.
    destruct (IH s1 v1 Hk1) as (v2 & Hk2 & Hv2).
    exists v2. split; [exact Hk2|].
    destruct Hv2 as [->|(l2 & Hl2 & Hin2)].
    + destruct Hv1 as [->|(l1 & Hl1 & Hin1)]; [left; reflexivity|].
      right. destruct (run_log ops s1) as [l' Hl'].
      exists (l1 ++ l'). split.
      * rewrite Hl', Hl1. symmetry. apply app_assoc.
      * apply in_or_app. left. exact Hin1.
    + right. exists (l ++ l2). split.
      * rewrite Hl2, Hl. symmetry. apply app_assoc.
      * apply in_or_app. right. exact Hin2.
Qed.

Lemma run_dom (ops : list (op E)) :
  forall s, dom (entries s) ⊆ dom (entries (run ops s)).
Proof.
  induction ops as [|o ops IH]; intros s; cbn [run]; [reflexivity|].
  assert (Hstep : dom (entries s) ⊆ dom (entries (after (exec o s)))).
  { destruct (effect_entries _ _ (exec_effect o s)) as [->|(k & v & ->)];
      [reflexivity|apply dom_insert_subseteq]. }
  destruct (exec o s) as [r s1|msg s1|s1]; cbn [after] in Hstep;
    try exact Hstep.
  etrans; [exact Hstep|apply IH].
Qed.

(** A registration function that returns without error has just written
    the client now cached under its key. *)
Lemma exec_installs (o : op E) k s s' :
  target o = Some k ->
  exec o s = Ret None s' ->
  exists v l,
    log s' = log s ++ l ++ [EvMapWrite k v; EvUnlock] /\
    lookup_client k s' = Some v.
Proof.
  destruct s as [m [|] w lg].
  - rewrite exec_held. intros _.
    destruct o as [i k0|a cs d k0|c k0|ctx|ctx k0]; destruct_calls;
      discriminate.
  - unfold lookup_client.
    destruct o as [i k0|a cs d k0|c k0|ctx|ctx k0]; cbn [exec target];
      intros Ht; try discriminate Ht; injection Ht as <-.
    + unfold bind at 1. rewrite Init_free. destruct_calls. cbn [ret].
      intros H. injection H as <-. cbn [dc_c log].
      eexists _, (EvLock :: alloc_events m ++ [EvNewCertSource _ _ _]).
      split; [log_shape|apply lookup_insert_eq].
    + unfold bind at 1. destruct m as [m|].
      * rewrite InitClient_free. cbn [ret]. intros H. injection H as <-.
        cbn [dc_c log]. eexists _, [EvLock].
        split; [log_shape|apply lookup_insert_eq].
      * rewrite InitClient_nil. discriminate.
    + rewrite InitDefault_free. destruct_calls; [discriminate|].
      intros H. injection H as <-. cbn [dc_c log].
      eexists _, (EvDefaultClient _ :: EvLock ::
                    alloc_events m ++ [EvNewCertSource _ _ _]).
      split; [log_shape|apply lookup_insert_eq].
    + rewrite InitFromJson_free. destruct_calls; [discriminate|].
      intros H. injection H as <-. cbn [dc_c log].
      eexists _, (EvJWTConfigFromJSON _ _ :: EvConfigClient _ :: EvLock ::
                    alloc_events m ++ [EvNewCertSource _ _ _]).
      split; [log_shape|apply lookup_insert_eq].
Qed.

(** ** The claims *)

(** C1 (the code departs from it): [Dial] never takes the ambient-identity
    path.  Called with the empty credential on a process that has
    registered nothing, it hands the empty blob to
    [google.JWTConfigFromJSON], as [InitFromJson] does, and makes no call
    of [google.DefaultClient], the exchange of [InitDefault]. *)
Theorem Dial_empty_credential_takes_json_path instance (w : World E) :
  let l := log (after (Dial instance "" (start E w))) in
  In (EvJWTConfigFromJSON "" sqlservice_admin_scope) l /\
  forall scope, ~ In (EvDefaultClient scope) l.
Proof.
  unfold start. rewrite Dial_miss by apply lookup_empty. cbn zeta.
  destruct (google_JWTConfigFromJSON E "" sqlservice_admin_scope w)
    as [[cfg [err|]] w1].
  - cbn. split; [tauto|]. intros scope H.
    repeat (destruct H as [H|H]; [discriminate H|]). exact H.
  - destruct (Config_Client E cfg (context_Background E) w1) as [cl w2].
    destruct (certs_NewCertSource E sqladmin_base_url cl true w2) as [cs w3].
    destruct (Client_Dial E _ instance w3) as [r w4].
    cbn. split; [tauto|]. intros scope H.
    repeat (destruct H as [H|H]; [discriminate H|]). exact H.
Qed.

(** C2 (the code departs from it): [InitClient] as the first use of the
    package does not allocate the map.  It takes the lock, panics on the
    assignment to an entry of the nil map, and leaves the lock held. *)
Theorem InitClient_first_call_panics v k (w : World E) :
  InitClient v k (start E w) =
  Panic "assignment to entry in nil map" (mkState None true w [EvLock]).
Proof. unfold start. rewrite InitClient_nil. reflexivity. Qed.

(** C7: [Init] with the lock free installs under the given key a client
    whose port is 3307, whose certificate source is
    [certs.NewCertSource] applied to the fixed base URL, the given auth
    client and [true], and whose connection set and dialer are the
    arguments as given. *)
Theorem Init_installs_built_client auth connset dialer k s :
  dc_locked s = false ->
  exists s' v,
    Init auth connset dialer k s = Ret tt s' /\
    lookup_client k s' = Some v /\
    Port v = 3307%Z /\
    Certs v = fst (certs_NewCertSource E
                     "https://www.googleapis.com/sql/v1beta4/" auth true
                     (world s)) /\
    Conns v = connset /\
    Dialer_ v = dialer.
Proof.
  destruct s as [m lk w lg]. cbn. intros ->.
  rewrite Init_free. unfold sqladmin_base_url.
  destruct (certs_NewCertSource E _ auth true w) as [cs w'].
  eexists _, _. split; [reflexivity|].
  unfold lookup_client. cbn. rewrite lookup_insert_eq.
  repeat split; reflexivity.
Qed.

(** C8: when a client is already cached under the credential, [Dial]
    reads it, calls its [Dial] method with the instance and returns what
    that call returns.  The log gains the lookup and the delegated call and
    nothing else, so no identity exchange takes place, and the registry is
    left as it was. *)
Theorem Dial_cached_skips_exchange instance k v s :
  dc_locked s = false ->
  lookup_client k s = Some v ->
  exists s',
    Dial instance k s = Ret (fst (Client_Dial E v instance (world s))) s' /\
    log s' = log s ++ [EvLock; EvMapRead k; EvUnlock; EvClientDial v instance] /\
    dc_c s' = dc_c s /\
    world s' = snd (Client_Dial E v instance (world s)).
Proof.
  destruct s as [m lk w lg]. unfold lookup_client. cbn. intros -> Hk.
  destruct m as [m|]; [|discriminate].
  rewrite (Dial_hit _ _ _ _ _ _ Hk).
  destruct (Client_Dial E v instance w) as [r w'].
  eexists. repeat split; reflexivity.
Qed.

(** C10: in [Dial], when the first lookup finds nothing and the implicit
    [InitFromJson] succeeds, the second lookup of the same key yields the
    client [InitFromJson] has just installed, and that client's [Dial] is
    the call delegated to.  More generally a successful [InitFromJson]
    always leaves a client under its key, and [Dial] never panics. *)
Theorem Dial_relookup_finds_client instance k s :
  dc_locked s = false ->
  lookup_client k s = None ->
  snd (fst (google_JWTConfigFromJSON E k sqlservice_admin_scope (world s)))
    = None ->
  (exists v r s' l,
      Dial instance k s = Ret r s' /\
      log s' = log s ++ l ++ [EvMapWrite k v; EvUnlock; EvLock; EvMapRead k;
                              EvUnlock; EvClientDial v instance] /\
      lookup_client k s' = Some v) /\
  (forall ctx s1 s2,
      InitFromJson ctx k s1 = Ret None s2 -> is_Some (lookup_client k s2)) /\
  (forall msg s', Dial instance k s <> Panic msg s').
Proof.
  intros Hfree Hk Hok. split; [|split].
  - destruct s as [m lk w lg]. unfold lookup_client in *. cbn in *. subst lk.
    assert (Hk' : slots m !! k = None).
    { destruct m; [exact Hk|apply lookup_empty]. }
    rewrite (Dial_miss _ _ _ _ _ Hk'). cbn zeta.
    destruct (google_JWTConfigFromJSON E k sqlservice_admin_scope w)
      as [[cfg [err|]] w1]; [discriminate Hok|].
    destruct (Config_Client E cfg (context_Background E) w1) as [cl w2].
    destruct (certs_NewCertSource E sqladmin_base_url cl true w2) as [cs w3].
    destruct (Client_Dial E _ instance w3) as [r w4].
    eexists _, _, _,
      (EvLock :: alloc_events m ++
         [EvMapRead k; EvUnlock;
          EvJWTConfigFromJSON k sqlservice_admin_scope;
          EvConfigClient cfg; EvLock;
          EvNewCertSource sqladmin_base_url cl true]).
    split; [reflexivity|]. cbn. split.
    + rewrite <- !app_assoc. cbn. rewrite <- !app_assoc. reflexivity.
    + apply lookup_insert_eq.
  - intros ctx [m1 [|] w1 lg1] s2 H.
    + exfalso. revert H. unfold_code. cbn.
      destruct (google_JWTConfigFromJSON E k sqlservice_admin_scope w1)
        as [[cfg [err|]] w1']; [discriminate|]. cbn.
      destruct (Config_Client E cfg ctx w1') as [cl w2]. discriminate.
    + rewrite InitFromJson_free in H.
      destruct (google_JWTConfigFromJSON E k sqlservice_admin_scope w1)
        as [[cfg [err|]] w1']; [discriminate|].
      destruct (Config_Client E cfg ctx w1') as [cl w2].
      destruct (certs_NewCertSource E sqladmin_base_url cl true w2) as [cs w3].
      injection H as <-. unfold lookup_client. cbn.
      rewrite lookup_insert_eq. eauto.
  - intros msg s'. apply Dial_no_panic.
Qed.



(** C5: when [InitFromJson] returns an error, the error is the one
    [google.JWTConfigFromJSON] returned, and the map and the lock are as
    before, so a key that was missing is still missing.  A later [Dial]
    with that key calls [google.JWTConfigFromJSON] again and goes by the
    new answer: a new error is wrapped and nothing is cached, a success
    installs a client under the key and dials through it. *)
Theorem InitFromJson_failure_not_cached ctx k s err s' :
  InitFromJson ctx k s = Ret (Some err) s' ->
  (exists cfg,
      google_JWTConfigFromJSON E k sqlservice_admin_scope (world s)
      = (cfg, Some err, world s')) /\
  dc_c s' = dc_c s /\
  dc_locked s' = dc_locked s /\
  lookup_client k s' = lookup_client k s /\
  (dc_locked s = false ->
   lookup_client k s = None ->
   forall instance,
   exists l,
     log (after (Dial instance k s')) = log s' ++ l /\
     In (EvJWTConfigFromJSON k sqlservice_admin_scope) l /\
     match google_JWTConfigFromJSON E k sqlservice_admin_scope (world s') with
     | (_, Some err2, _) =>
         exists s'',
           Dial instance k s'
           = Ret (None, Some (fmt_Errorf_v init_failed_prefix err2)) s'' /\
           lookup_client k s'' = None
     | (_, None, _) =>
         exists r v s'',
           Dial instance k s' = Ret r s'' /\
           lookup_client k s'' = Some v /\
           In (EvClientDial v instance) l
     end).
Proof.
  destruct s as [m [|] w lg]; cbn [dc_c dc_locked world].
  - unfold_code. cbn.
    destruct (google_JWTConfigFromJSON E k sqlservice_admin_scope w)
      as [[cfg [e|]] w1]; cbn.
    + intros H. injection H as <- <-. unfold lookup_client.
      cbn [dc_c dc_locked world log].
      split; [eauto|]. do 3 (split; [reflexivity|]). discriminate.
    + destruct (Config_Client E cfg ctx w1) as [cl w2]. discriminate.
  - rewrite InitFromJson_free.
    destruct (google_JWTConfigFromJSON E k sqlservice_admin_scope w)
      as [[cfg [e|]] w1].
    + intros H. injection H as <- <-. unfold lookup_client.
      cbn [dc_c dc_locked world log].
      split; [eauto|]. do 3 (split; [reflexivity|]).
      intros _ Hk instance.
      assert (Hk' : slots m !! k = None).
      { destruct m; [exact Hk|apply lookup_empty]. }
      rewrite (Dial_miss _ _ _ _ _ Hk'). cbv zeta.
      destruct (google_JWTConfigFromJSON E k sqlservice_admin_scope w1)
        as [[cfg2 [e2|]] w2].
      * eexists. cbn [after log]. split; [reflexivity|]. split.
        { destruct m; cbn; tauto. }
        eexists. split; [reflexivity|]. cbn.
        destruct m; [exact Hk|apply lookup_empty].
      * destruct (Config_Client E cfg2 (context_Background E) w2)
          as [cl w3].
        destruct (certs_NewCertSource E sqladmin_base_url cl true w3)
          as [cs w4].
        destruct (Client_Dial E _ instance w4) as [r w5].
        exists (EvLock :: alloc_events m ++
                  [EvMapRead k; EvUnlock;
                   EvJWTConfigFromJSON k sqlservice_admin_scope;
                   EvConfigClient cfg2; EvLock;
                   EvNewCertSource sqladmin_base_url cl true;
                   EvMapWrite k (mkClient port cs None None); EvUnlock;
                   EvLock; EvMapRead k; EvUnlock;
                   EvClientDial (mkClient port cs None None) instance]).
        cbn [after log]. split; [log_shape|]. split.
        { destruct m; cbn; tauto. }
        eexists _, _, _. split; [reflexivity|]. cbn. split.
        { apply lookup_insert_eq. }
        destruct m; cbn; tauto.
    + destruct (Config_Client E cfg ctx w1) as [cl w2].
      destruct (certs_NewCertSource E sqladmin_base_url cl true w2)
        as [cs w3].
      discriminate.
Qed.

(** C6: with the lock free, an error returned by [Dial] has one of two
    origins, told apart by the last event logged.  Either the key was
    missing and the implicit initialization failed: no connection is
    returned and the error is the fixed message followed by the text of
    the exchange error.  Or a client was resolved and its own [Dial]
    returned the error, which comes back as it is, with the connection
    value next to it.  Both happen whenever their cause does: a failed
    exchange makes [Dial] return the wrapped error, and an error from the
    [Dial] of the resolved client, be it the cached one or the one the
    implicit initialization has just installed, makes [Dial] return that
    very error and connection value. *)
Theorem Dial_error_shapes instance k s :
  dc_locked s = false ->
  (forall conn e s',
      Dial instance k s = Ret (conn, Some e) s' ->
      (exists cfg e0 w1 l,
          lookup_client k s = None /\
          google_JWTConfigFromJSON E k sqlservice_admin_scope (world s)
          = (cfg, Some e0, w1) /\
          conn = None /\
          e = errorString
                ("default proxy initialization failed; consider calling proxy.Init explicitly: "
                 ++ Error e0)%string /\
          log s' = log s ++ l ++ [EvJWTConfigFromJSON k sqlservice_admin_scope])
      \/
      (exists v w l,
          Client_Dial E v instance w = (conn, Some e, world s') /\
          lookup_client k s' = Some v /\
          log s' = log s ++ l ++ [EvClientDial v instance])) /\
  (forall cfg e0 w1,
      lookup_client k s = None ->
      google_JWTConfigFromJSON E k sqlservice_admin_scope (world s)
      = (cfg, Some e0, w1) ->
      exists s',
        Dial instance k s
        = Ret (None,
               Some (errorString
                       ("default proxy initialization failed; consider calling proxy.Init explicitly: "
                        ++ Error e0)%string)) s') /\
  (forall r s' v,
      Dial instance k s = Ret r s' ->
      last (log s') = Some (EvClientDial v instance) ->
      exists w, Client_Dial E v instance w = (r, world s')) /\
  (forall v conn e w',
      lookup_client k s = Some v ->
      Client_Dial E v instance (world s) = (conn, Some e, w') ->
      exists s',
        Dial instance k s = Ret (conn, Some e) s' /\
        world s' = w' /\
        last (log s') = Some (EvClientDial v instance)) /\
  (forall cfg w1 conn e w4,
      lookup_client k s = None ->
      google_JWTConfigFromJSON E k sqlservice_admin_scope (world s)
      = (cfg, None, w1) ->
      let cl := Config_Client E cfg (context_Background E) w1 in
      let cs := certs_NewCertSource E sqladmin_base_url (fst cl) true
                  (snd cl) in
      let v := mkClient port (fst cs) None None in
      Client_Dial E v instance (snd cs) = (conn, Some e, w4) ->
      exists s',
        Dial instance k s = Ret (conn, Some e) s' /\
        world s' = w4 /\
        lookup_client k s' = Some v /\
        last (log s') = Some (EvClientDial v instance)).
Proof.
  destruct s as [m lk w lg]. cbn [dc_locked dc_c world log]. intros ->.
  unfold lookup_client. cbn [dc_c].
  destruct (slots m !! k) as [v0|] eqn:Hk.
  - destruct m as [m|]; cbn [slots] in Hk; [|by rewrite lookup_empty in Hk].
    rewrite (Dial_hit _ _ _ _ _ _ Hk).
    destruct (Client_Dial E v0 instance w) as [r0 w'] eqn:Hd.
    split; [|split; [|split; [|split]]].
    + intros conn e s' H. injection H as -> <-. right.
      exists v0, w, [EvLock; EvMapRead k; EvUnlock]. cbn.
      split; [exact Hd|]. split; [exact Hk|]. log_shape.
    + intros cfg e0 w1 Hnone. rewrite Hk in Hnone. discriminate.
    + intros r s' v H Hlast. injection H as <- <-. cbn in Hlast.
      rewrite last_app_cons in Hlast. cbn in Hlast.
      injection Hlast as <-. eauto.
    + intros v conn e w0 Hv Hcall. rewrite Hk in Hv. injection Hv as <-.
      rewrite Hd in Hcall. injection Hcall as -> ->.
      eexists. split; [reflexivity|]. split; [reflexivity|].
      cbn [log]. rewrite last_app_cons. reflexivity.
    + intros cfg w1 conn e w4 Hnone. rewrite Hk in Hnone. discriminate.
  - rewrite (Dial_miss _ _ _ _ _ Hk). cbv zeta.
    assert (Hk0 : match m with Some m' => m' !! k | None => None end = None).
    { destruct m; [exact Hk|reflexivity]. }
    destruct (google_JWTConfigFromJSON E k sqlservice_admin_scope w)
      as [[cfg [e1|]] w1].
    + split; [|split; [|split; [|split]]].
      * intros conn e s' H. injection H as <- <- <-. left.
        exists cfg, e1, w1, (EvLock :: alloc_events m ++ [EvMapRead k; EvUnlock]).
        cbn. repeat split; try reflexivity; try exact Hk0. log_shape.
      * intros cfg' e0 w1' _ H. injection H as <- <- <-. eauto.
      * intros r s' v H Hlast. injection H as <- <-.
        destruct m; cbn in Hlast; rewrite last_app_cons in Hlast;
          discriminate Hlast.
      * intros v conn e w0 Hv. rewrite Hk0 in Hv. discriminate.
      * intros cfg' w1' conn e w4 _ H. discriminate H.
    + destruct (Config_Client E cfg (context_Background E) w1) as [cl w2]
        eqn:Hcl.
      destruct (certs_NewCertSource E sqladmin_base_url cl true w2)
        as [cs w3] eqn:Hcs.
      destruct (Client_Dial E _ instance w3) as [r0 w4] eqn:Hd.
      split; [|split; [|split; [|split]]].
      * intros conn e s' H. injection H as -> <-. right.
        eexists _, w3,
          (EvLock :: alloc_events m ++
             [EvMapRead k; EvUnlock;
              EvJWTConfigFromJSON k sqlservice_admin_scope;
              EvConfigClient cfg; EvLock;
              EvNewCertSource sqladmin_base_url cl true;
              EvMapWrite k _; EvUnlock; EvLock; EvMapRead k; EvUnlock]).
        cbn. split; [exact Hd|]. split; [apply lookup_insert_eq|]. log_shape.
      * intros cfg' e0 w1' _ H. discriminate H.
      * intros r s' v H Hlast. injection H as <- <-. cbn in Hlast.
        rewrite last_app_cons in Hlast. cbn in Hlast.
        injection Hlast as <-. eauto.
      * intros v conn e w0 Hv. rewrite Hk0 in Hv. discriminate.
      * intros cfg' w1' conn e w5 _ H. injection H as <- <-.
        cbv zeta. rewrite Hcl. cbn [fst snd]. rewrite Hcs. cbn [fst snd].
        intros Hcall.
        rewrite Hd in Hcall. injection Hcall as -> ->.
        eexists. split; [reflexivity|]. split; [reflexivity|].
        cbn [dc_c log]. split; [apply lookup_insert_eq|].
        rewrite last_app_cons. reflexivity.
Qed.

(** C9: a call leaves the entries of the registry as they were or sets
    exactly one of them (a nil map counting as empty); the set of cached
    keys never loses a key, over one call and over any sequence of calls. *)
Theorem registry_never_shrinks s :
  (forall o : op E,
      let s' := after (exec o s) in
      (entries s' = entries s \/
       exists k v, entries s' = <[k := v]> (entries s)) /\
      dom (entries s) ⊆ dom (entries s')) /\
  (forall ops : list (op E), dom (entries s) ⊆ dom (entries (run ops s))).
Proof.
  split.
  - intros o s'. subst s'.
    pose proof (effect_entries _ _ (exec_effect o s)) as He.
    split; [exact He|].
    destruct He as [->|(k & v & ->)]; [reflexivity|apply dom_insert_subseteq].
  - intros ops. apply run_dom.
Qed.

(** * Further properties of the code *)

(** ** What each call does to the entries *)

(** A call leaves the entries alone or sets the entry of its own key, to
    a client of the kind that call builds. *)
Lemma exec_entries (o : op E) s :
  entries (after (exec o s)) = entries s \/
  exists v,
    built_by o v /\
    entries (after (exec o s)) = <[key_of o := v]> (entries s).
Proof.
  unfold entries. destruct s as [m [|] w lg]; cbn [dc_c].
  - rewrite exec_held.
    destruct o as [i k|a cs d k|c k|ctx|ctx k]; destruct_calls; left;
      reflexivity.
  - destruct o as [i k|a cs d k|c k|ctx|ctx k]; cbn [exec key_of built_by];
      [unfold bind|unfold bind|unfold bind| |].
    + destruct (slots m !! k) as [v|] eqn:Hk.
      * destruct m as [m|]; cbn [slots] in Hk; [|by rewrite lookup_empty in Hk].
        rewrite (Dial_hit _ _ _ _ _ _ Hk). destruct_calls. left. reflexivity.
      * rewrite (Dial_miss _ _ _ _ _ Hk). destruct_calls.
        -- left. reflexivity.
        -- right. eexists. split; [|reflexivity]. repeat split.
    + rewrite Init_free. destruct_calls. right.
      eexists. split; [|reflexivity]. repeat split.
    + destruct m as [m|]; [rewrite InitClient_free|rewrite InitClient_nil].
      * right. eexists. split; reflexivity.
      * left. reflexivity.
    + rewrite InitDefault_free. destruct_calls.
      * left. reflexivity.
      * right. eexists. split; [|reflexivity]. repeat split.
    + rewrite InitFromJson_free. destruct_calls.
      * left. reflexivity.
      * right. eexists. split; [|reflexivity]. repeat split.
Qed.

(** From a ready state every call returns and leaves a ready state. *)
Lemma exec_ready (o : op E) s :
  ready s = true ->
  exists r s', exec o s = Ret r s' /\ ready s' = true.
Proof.
  destruct s as [m lk w lg]. unfold ready. cbn [dc_c dc_locked].
  destruct lk; [discriminate|]. destruct m as [m|]; [|discriminate].
  intros _.
  destruct o as [i k|a cs d k|c k|ctx|ctx k]; cbn [exec];
    [unfold bind|unfold bind|unfold bind| |].
  - destruct (m !! k) as [v|] eqn:Hk.
    + rewrite (Dial_hit _ _ _ _ _ _ Hk). destruct_calls. eauto.
    + rewrite (Dial_miss i k (Some m) w lg Hk). destruct_calls; eauto.
  - rewrite Init_free. destruct_calls. eauto.
  - rewrite InitClient_free. eauto.
  - rewrite InitDefault_free. destruct_calls; eauto.
  - rewrite InitFromJson_free. destruct_calls; eauto.
Qed.

(** ** Properties *)

(** X1: a call never touches the entry of a key other than its own
    (its credential; the empty key for [InitDefault]). *)
Theorem other_keys_untouched (o : op E) s k' :
  k' <> key_of o ->
  lookup_client k' (after (exec o s)) = lookup_client k' s.
Proof.
  intros Hne. rewrite !lookup_client_entries.
  destruct (exec_entries o s) as [->|(v & _ & ->)]; [reflexivity|].
  apply lookup_insert_ne. congruence.
Qed.

(** X2: in a process that never calls [InitClient], every cached client
    has port 3307, whatever calls were made and however they ended. *)
Theorem cached_clients_use_fixed_port (ops : list (op E)) (w : World E) k v :
  forallb (fun o => negb (is_InitClient o)) ops = true ->
  lookup_client k (run ops (start E w)) = Some v ->
  Port v = 3307%Z.
Proof.
  assert (Hgen : forall (ops : list (op E)) s,
             (forall k v, lookup_client k s = Some v -> Port v = port) ->
             forallb (fun o => negb (is_InitClient o)) ops = true ->
             forall k v, lookup_client k (run ops s) = Some v -> Port v = port).
  { clear. induction ops as [|o ops IH]; intros s Hs Hops k v; cbn [run].
    - apply Hs.
    - cbn [forallb] in Hops. apply andb_true_iff in Hops as [Ho Hops].
      assert (Hs1 : forall k v,
                 lookup_client k (after (exec o s)) = Some v -> Port v = port).
      { intros k1 v1. rewrite lookup_client_entries.
        destruct (exec_entries o s) as [->|(v0 & Hb & ->)].
        - rewrite <- lookup_client_entries. apply Hs.
        - destruct (decide (key_of o = k1)) as [->|Hne].
          + rewrite lookup_insert_eq. intros [= <-].
            destruct o; cbn in Hb, Ho; try discriminate Ho; apply Hb.
          + rewrite lookup_insert_ne by exact Hne.
            rewrite <- lookup_client_entries. apply Hs. }
      destruct (exec o s) as [r s1|msg s1|s1]; cbn [after] in Hs1;
        try apply Hs1.
      apply IH; assumption. }
  intros Hops Hk. apply (Hgen ops (start E w)) with (k := k); try assumption.
  intros k0 v0. unfold lookup_client, start. cbn. discriminate.
Qed.

(** X3: from a ready state, [InitClient] under a key cancels what an
    earlier call for the same key did to the registry: the entries after
    the two calls are the entries before with that key set to the client
    given to [InitClient]. *)
Theorem InitClient_overrides (o : op E) v s :
  ready s = true ->
  completes [o; OpInitClient v (key_of o)] s = true /\
  entries (run [o; OpInitClient v (key_of o)] s)
  = <[key_of o := v]> (entries s).
Proof.
  intros Hr. destruct (exec_ready o s Hr) as (r & s1 & Hex & Hr1).
  pose proof (exec_entries o s) as He.
  cbn [run completes]. rewrite Hex in *. cbn [after] in He.
  destruct s1 as [m1 lk1 w1 lg1]. unfold ready in Hr1. cbn in Hr1.
  destruct lk1; [discriminate|]. destruct m1 as [m1|]; [|discriminate].
  cbn [exec]. unfold bind. rewrite InitClient_free. cbn [ret].
  split; [reflexivity|].
  unfold entries in *. cbn [dc_c slots] in *.
  destruct He as [->|(v0 & _ & ->)]; [reflexivity|].
  apply insert_insert_eq.
Qed.

(** X4: [InitDefault] with the lock free.  When [google.DefaultClient]
    returns an error, the same error is returned and map and lock are as
    before.  Otherwise nil is returned and the empty key holds a client on
    port 3307 whose certificate source is built on the fixed base URL from
    the default client, with no connection set and no dialer. *)
Theorem InitDefault_outcomes ctx s :
  dc_locked s = false ->
  match google_DefaultClient E ctx
          "https://www.googleapis.com/auth/sqlservice.admin" (world s) with
  | (_, Some err, w1) =>
      exists s',
        InitDefault ctx s = Ret (Some err) s' /\
        dc_c s' = dc_c s /\ dc_locked s' = false /\ world s' = w1
  | (cl, None, w1) =>
      exists s' v,
        InitDefault ctx s = Ret None s' /\
        lookup_client "" s' = Some v /\
        Port v = 3307%Z /\
        Certs v = fst (certs_NewCertSource E
                         "https://www.googleapis.com/sql/v1beta4/" cl true w1) /\
        Conns v = None /\ Dialer_ v = None /\
        dc_locked s' = false
  end.
Proof.
  destruct s as [m lk w lg]. cbn [dc_locked dc_c world]. intros ->.
  rewrite InitDefault_free.
  unfold sqlservice_admin_scope, sqladmin_base_url.
  destruct (google_DefaultClient E ctx _ w) as [[cl [err|]] w1].
  - eexists. repeat split; reflexivity.
  - destruct (certs_NewCertSource E _ cl true w1) as [cs w2].
    eexists _, _. split; [reflexivity|].
    unfold lookup_client. cbn. rewrite lookup_insert_eq.
    repeat split; reflexivity.
Qed.

(** X5: [InitFromJson] with the lock free, on a blob that
    [google.JWTConfigFromJSON] accepts for the sqlservice.admin scope:
    nil is returned and the blob itself is the key of a client on port
    3307, whose certificate source is built on the fixed base URL from the
    HTTP client of the parsed configuration, with no connection set and no
    dialer. *)
Theorem InitFromJson_installs ctx k s cfg w1 :
  dc_locked s = false ->
  google_JWTConfigFromJSON E k
    "https://www.googleapis.com/auth/sqlservice.admin" (world s)
  = (cfg, None, w1) ->
  exists s' v,
    InitFromJson ctx k s = Ret None s' /\
    lookup_client k s' = Some v /\
    Port v = 3307%Z /\
    Certs v = fst (certs_NewCertSource E
                     "https://www.googleapis.com/sql/v1beta4/"
                     (fst (Config_Client E cfg ctx w1)) true
                     (snd (Config_Client E cfg ctx w1))) /\
    Conns v = None /\ Dialer_ v = None.
Proof.
  destruct s as [m lk w lg]. cbn [dc_locked dc_c world]. intros -> Hj.
  rewrite InitFromJson_free.
  unfold sqlservice_admin_scope, sqladmin_base_url. rewrite Hj.
  destruct (Config_Client E cfg ctx w1) as [cl w2]. cbn [fst snd].
  destruct (certs_NewCertSource E _ cl true w2) as [cs w3].
  eexists _, _. split; [reflexivity|].
  unfold lookup_client. cbn. rewrite lookup_insert_eq.
  repeat split; reflexivity.
Qed.

(** X6: a call entered with the lock free returns with the lock free.
    The one exception is [InitClient] on the nil map, which panics with
    the lock held. *)
Theorem lock_free_call_returns (o : op E) s :
  dc_locked s = false ->
  (exists r s', exec o s = Ret r s' /\ dc_locked s' = false) \/
  (exists c k s',
      o = OpInitClient c k /\ dc_c s = None /\
      exec o s = Panic "assignment to entry in nil map" s' /\
      dc_locked s' = true).
Proof.
  destruct s as [m lk w lg]. cbn [dc_locked dc_c]. intros ->.
  destruct o as [i k|a cs d k|c k|ctx|ctx k]; cbn [exec];
    [unfold bind|unfold bind|unfold bind| |].
  - left. destruct (slots m !! k) as [v|] eqn:Hk.
    + destruct m as [m|]; cbn [slots] in Hk; [|by rewrite lookup_empty in Hk].
      rewrite (Dial_hit _ _ _ _ _ _ Hk). destruct_calls. eauto.
    + rewrite (Dial_miss _ _ _ _ _ Hk). destruct_calls; eauto.
  - left. rewrite Init_free. destruct_calls. eauto.
  - destruct m as [m|].
    + left. rewrite InitClient_free. eauto.
    + right. rewrite InitClient_nil. eexists _, _, _. eauto.
  - left. rewrite InitDefault_free. destruct_calls; eauto.
  - left. rewrite InitFromJson_free. destruct_calls; eauto.
Qed.

(** X7: once the lock is free and the map allocated, every sequence of
    calls runs to its end, no call panicking or blocking, and leaves the
    lock free and the map allocated. *)
Theorem ready_sequences_complete (ops : list (op E)) s :
  ready s = true ->
  completes ops s = true /\ ready (run ops s) = true.
Proof.
  revert s. induction ops as [|o ops IH]; intros s Hr; cbn [completes run].
  - split; [reflexivity|exact Hr].
  - destruct (exec_ready o s Hr) as (r & s1 & -> & Hr1). apply IH, Hr1.
Qed.

(** X8: while the lock is held, as it is for good after the panic of
    [InitClient], no call succeeds and none changes the map or frees the
    lock: [Dial], [Init] and [InitClient] block at once, [InitDefault] and
    [InitFromJson] block after their exchange or return its error. *)
Theorem held_lock_blocks (o : op E) s :
  dc_locked s = true ->
  dc_c (after (exec o s)) = dc_c s /\
  dc_locked (after (exec o s)) = true /\
  (forall s', exec o s <> Ret None s') /\
  (is_exchange_op o = false -> exec o s = Block s).
Proof.
  destruct s as [m lk w lg]. cbn [dc_locked dc_c]. intros ->.
  rewrite exec_held.
  destruct o as [i k|a cs d k|c k|ctx|ctx k]; cbn [is_exchange_op];
    destruct_calls; cbn [after dc_c dc_locked];
    repeat split; try discriminate; try reflexivity.
Qed.

(** X9: [Dial] with the lock free returns, and whatever it returns it
    leaves the map allocated: [InitClient] on the state it leaves does not
    panic and caches its client. *)
Theorem Dial_makes_InitClient_safe instance k s :
  dc_locked s = false ->
  exists r s1,
    Dial instance k s = Ret r s1 /\
    forall v k',
    exists s2,
      InitClient v k' s1 = Ret tt s2 /\ lookup_client k' s2 = Some v.
Proof.
  destruct s as [m lk w lg]. cbn [dc_locked]. intros ->.
  unfold lookup_client.
  destruct (slots m !! k) as [v0|] eqn:Hk.
  - destruct m as [m|]; cbn [slots] in Hk; [|by rewrite lookup_empty in Hk].
    rewrite (Dial_hit _ _ _ _ _ _ Hk). destruct_calls.
    eexists _, _. split; [reflexivity|]. intros v k'.
    rewrite InitClient_free. eexists. split; [reflexivity|].
    apply lookup_insert_eq.
  - rewrite (Dial_miss _ _ _ _ _ Hk). destruct_calls;
      (eexists _, _; split; [reflexivity|]; intros v k';
       rewrite InitClient_free; eexists; split; [reflexivity|];
       apply lookup_insert_eq).
Qed.

(** X10: on a missing key with the lock free, [Dial] is [InitFromJson]
    on the background context followed by [Dial].  If that [InitFromJson]
    returns an error, [Dial] returns it wrapped and reaches the same
    entries and world; if it returns nil, [Dial] from the state it leaves
    returns the same result and reaches the same map and world. *)
Theorem Dial_is_InitFromJson_then_Dial instance k s oe s1 :
  dc_locked s = false ->
  lookup_client k s = None ->
  InitFromJson (context_Background E) k s = Ret oe s1 ->
  match oe with
  | Some e =>
      exists s2,
        Dial instance k s
        = Ret (None, Some (fmt_Errorf_v init_failed_prefix e)) s2 /\
        entries s2 = entries s1 /\ world s2 = world s1
  | None =>
      exists r s2 s2',
        Dial instance k s = Ret r s2 /\
        Dial instance k s1 = Ret r s2' /\
        dc_c s2 = dc_c s2' /\ world s2 = world s2'
  end.
Proof.
  destruct s as [m lk w lg]. unfold lookup_client.
  cbn [dc_locked dc_c]. intros -> Hk.
  assert (Hk' : slots m !! k = None).
  { destruct m; [exact Hk|apply lookup_empty]. }
  rewrite InitFromJson_free, (Dial_miss _ _ _ _ _ Hk'). cbv zeta.
  destruct (google_JWTConfigFromJSON E k sqlservice_admin_scope w)
    as [[cfg [e|]] w1].
  - intros [= <- <-]. eexists. split; [reflexivity|].
    split; [|reflexivity]. unfold entries. reflexivity.
  - destruct (Config_Client E cfg (context_Background E) w1) as [cl w2].
    destruct (certs_NewCertSource E sqladmin_base_url cl true w2) as [cs w3].
    intros [= <- <-].
    rewrite (Dial_hit instance k (mkClient port cs None None))
      by apply lookup_insert_eq.
    destruct (Client_Dial E _ instance w3) as [r w4].
    eexists _, _, _. repeat split; reflexivity.
Qed.


(** X12: after [InitDefault] has returned nil, [Dial] with the empty
    credential dials through the client [InitDefault] installed: it logs
    the lookup and the delegated dial only, so [google.JWTConfigFromJSON]
    is not given the empty blob. *)
Theorem InitDefault_then_Dial_empty ctx s s1 :
  InitDefault ctx s = Ret None s1 ->
  exists v,
    lookup_client "" s1 = Some v /\
    forall instance,
    exists s2,
      Dial instance "" s1
      = Ret (fst (Client_Dial E v instance (world s1))) s2 /\
      log s2 = log s1 ++ [EvLock; EvMapRead ""; EvUnlock;
                          EvClientDial v instance].
Proof.
  destruct s as [m [|] w lg].
  - pose proof (exec_held (OpInitDefault ctx) m w lg) as H.
    cbn [exec] in H. rewrite H. destruct_calls; discriminate.
  - rewrite InitDefault_free.
    destruct (google_DefaultClient E ctx sqlservice_admin_scope w)
      as [[cl [err|]] w1]; [discriminate|].
    destruct (certs_NewCertSource E sqladmin_base_url cl true w1) as [cs w2].
    intros [= <-]. eexists. unfold lookup_client. cbn [dc_c].
    split; [apply lookup_insert_eq|]. intros instance.
    rewrite (Dial_hit instance "" (mkClient port cs None None))
      by apply lookup_insert_eq.
    cbn [world log].
    destruct (Client_Dial E _ instance w2) as [r2 w3].
    eexists. split; reflexivity.
Qed.

(** X13: the instance given to [Dial] reaches nothing but the delegated
    dial.  Two calls from one state that differ in the instance leave the
    same map, and their logs are the same or end in the dial of the same
    client, each with its own instance. *)
Theorem Dial_instance_passthrough instance1 instance2 k s :
  dc_c (after (Dial instance1 k s)) = dc_c (after (Dial instance2 k s)) /\
  exists l,
    (log (after (Dial instance1 k s)) = l /\
     log (after (Dial instance2 k s)) = l) \/
    (exists v,
        log (after (Dial instance1 k s)) = l ++ [EvClientDial v instance1] /\
        log (after (Dial instance2 k s)) = l ++ [EvClientDial v instance2]).
Proof.
  destruct s as [m [|] w lg].
  - split; [reflexivity|]. eexists. left. split; reflexivity.
  - destruct (slots m !! k) as [v|] eqn:Hk.
    + destruct m as [m|]; cbn [slots] in Hk; [|by rewrite lookup_empty in Hk].
      rewrite !(Dial_hit _ _ _ _ _ _ Hk).
      destruct (Client_Dial E v instance1 w) as [r1 w1].
      destruct (Client_Dial E v instance2 w) as [r2 w2].
      split; [reflexivity|].
      exists (lg ++ [EvLock; EvMapRead k; EvUnlock]). right. exists v.
      cbn [after log]. split; log_shape.
    + rewrite !(Dial_miss _ _ _ _ _ Hk). cbv zeta.
      destruct (google_JWTConfigFromJSON E k sqlservice_admin_scope w)
        as [[cfg [e|]] w1].
      * split; [reflexivity|]. eexists. left. split; reflexivity.
      * destruct (Config_Client E cfg (context_Background E) w1) as [cl w2].
        destruct (certs_NewCertSource E sqladmin_base_url cl true w2)
          as [cs w3].
        destruct (Client_Dial E _ instance1 w3) as [r1 w4].
        destruct (Client_Dial E _ instance2 w3) as [r2 w5].
        split; [reflexivity|].
        exists (lg ++ EvLock :: alloc_events m ++
                  [EvMapRead k; EvUnlock;
                   EvJWTConfigFromJSON k sqlservice_admin_scope;
                   EvConfigClient cfg; EvLock;
                   EvNewCertSource sqladmin_base_url cl true;
                   EvMapWrite k (mkClient port cs None None); EvUnlock;
                   EvLock; EvMapRead k; EvUnlock]).
        right. exists (mkClient port cs None None).
        cbn [after log]. split; log_shape.
Qed.

(** X14: [Dial] never replaces a cached client: whatever is cached under
    any key before the call is cached under it after the call, whether
    the call returns, fails or blocks. *)
Theorem Dial_keeps_cached instance k s k' v :
  lookup_client k' s = Some v ->
  lookup_client k' (after (Dial instance k s)) = Some v.
Proof.
  destruct s as [m [|] w lg]; unfold lookup_client; cbn [dc_c].
  - intros Hk'. exact Hk'.
  - destruct m as [m|]; [|discriminate]. intros Hk'.
    destruct (m !! k) as [v0|] eqn:Hk.
    + rewrite (Dial_hit _ _ _ _ _ _ Hk).
      destruct (Client_Dial E v0 instance w) as [r w']. exact Hk'.
    + rewrite (Dial_miss instance k (Some m) w lg Hk). cbv zeta.
      destruct (google_JWTConfigFromJSON E k sqlservice_admin_scope w)
        as [[cfg [e|]] w1]; [exact Hk'|].
      destruct (Config_Client E cfg (context_Background E) w1) as [cl w2].
      destruct (certs_NewCertSource E sqladmin_base_url cl true w2)
        as [cs w3].
      destruct (Client_Dial E _ instance w3) as [r w4].
      cbn [after dc_c slots]. rewrite lookup_insert_ne; [exact Hk'|].
      intros ->. rewrite Hk in Hk'. discriminate.
Qed.

End ProxyProofs.

(** * The claims on concrete inputs *)



Lemma InitFromJson_failure_not_cached_witness :
  InitFromJson (E:=Stub.E) tt "bad-json" (start Stub.E 0)
  = Ret (Some Stub.parse_error) Stub.after_bad_json /\
  dc_c Stub.after_bad_json = dc_c (start Stub.E 0) /\
  lookup_client "bad-json" Stub.after_bad_json = None.
Proof.
  split; [reflexivity|].
  destruct (InitFromJson_failure_not_cached (E:=Stub.E) tt "bad-json"
              (start Stub.E 0) Stub.parse_error Stub.after_bad_json
              eq_refl) as (_ & Hc & _ & Hk & _).
  split; [exact Hc|]. rewrite Hk. reflexivity.
Defined.

Lemma Dial_error_shapes_witness :
  dc_locked (start Stub.E 0) = false /\
  (exists s',
      Dial (E:=Stub.E) "p:r:i" "bad-json" (start Stub.E 0)
      = Ret (None,
             Some (errorString
                     "default proxy initialization failed; consider calling proxy.Init explicitly: unexpected end of JSON input"))
            s') /\
  (exists s',
      Dial (E:=Stub.E) "" "{k}" (start Stub.E 0)
      = Ret (None, Some Stub.dial_error) s' /\
      world s' = 4%nat /\
      lookup_client "{k}" s'
      = Some (mkClient 3307%Z "https://www.googleapis.com/sql/v1beta4/{k}"
                None None)) /\
  dc_locked Stub.registered = false /\
  lookup_client "k1" Stub.registered = Some Stub.custom /\
  (exists s',
      Dial (E:=Stub.E) "" "k1" Stub.registered
      = Ret (None, Some Stub.dial_error) s' /\
      last (log s') = Some (EvClientDial (E:=Stub.E) Stub.custom "")).
Proof.
  split; [reflexivity|].
  destruct (Dial_error_shapes (E:=Stub.E) "p:r:i" "bad-json" (start Stub.E 0)
              eq_refl) as (_ & Hwrap & _).
  split; [apply (Hwrap "" Stub.parse_error 1%nat); reflexivity|].
  destruct (Dial_error_shapes (E:=Stub.E) "" "{k}" (start Stub.E 0)
              eq_refl) as (_ & _ & _ & _ & Hinit).
  destruct (Hinit "{k}" 1%nat None Stub.dial_error 4%nat eq_refl eq_refl
              eq_refl) as (s1 & Hd1 & Hw1 & Hk1 & _).
  split; [exists s1; split; [exact Hd1|split; [exact Hw1|exact Hk1]]|].
  split; [reflexivity|]. split; [reflexivity|].
  destruct (Dial_error_shapes (E:=Stub.E) "" "k1" Stub.registered eq_refl)
    as (_ & _ & _ & Hhit & _).
  destruct (Hhit Stub.custom None Stub.dial_error
              (S (world Stub.registered)) eq_refl eq_refl)
    as (s2 & Hd2 & _ & Hl2).
  exists s2. split; [exact Hd2|exact Hl2].
Defined.

Lemma Init_installs_built_client_witness :
  dc_locked Stub.initialised = false /\
  exists s' v,
    Init (E:=Stub.E) "a" (Some tt) (Some tt) "k1" Stub.initialised = Ret tt s' /\
    lookup_client "k1" s' = Some v /\
    Port v = 3307%Z /\
    Certs v = fst (certs_NewCertSource Stub.E
                     "https://www.googleapis.com/sql/v1beta4/" "a" true
                     (world Stub.initialised)) /\
    Conns v = Some tt /\
    Dialer_ v = Some tt.
Proof.
  split; [reflexivity|].
  apply (Init_installs_built_client (E:=Stub.E) "a" (Some tt) (Some tt) "k1"
           Stub.initialised).
  reflexivity.
Defined.

Lemma Dial_cached_skips_exchange_witness :
  dc_locked Stub.registered = false /\
  lookup_client "k1" Stub.registered = Some Stub.custom /\
  exists s',
    Dial (E:=Stub.E) "any" "k1" Stub.registered
    = Ret (fst (Client_Dial Stub.E Stub.custom "any" (world Stub.registered)))
          s' /\
    log s' = log Stub.registered ++
             [EvLock; EvMapRead "k1"; EvUnlock;
              EvClientDial (E:=Stub.E) Stub.custom "any"] /\
    dc_c s' = dc_c Stub.registered /\
    world s' = snd (Client_Dial Stub.E Stub.custom "any" (world Stub.registered)).
Proof.
  split; [reflexivity|]. split; [reflexivity|].
  apply (Dial_cached_skips_exchange (E:=Stub.E) "any" "k1" Stub.custom
           Stub.registered); reflexivity.
Defined.

Lemma Dial_relookup_finds_client_witness :
  dc_locked (start Stub.E 0) = false /\
  lookup_client "{k}" (start Stub.E 0) = None /\
  snd (fst (google_JWTConfigFromJSON Stub.E "{k}" sqlservice_admin_scope
              (world (start Stub.E 0)))) = None /\
  exists v r s' l,
    Dial (E:=Stub.E) "p:r:i" "{k}" (start Stub.E 0) = Ret r s' /\
    log s' = log (start Stub.E 0) ++ l ++
             [EvMapWrite "{k}" v; EvUnlock; EvLock; EvMapRead "{k}";
              EvUnlock; EvClientDial v "p:r:i"] /\
    lookup_client "{k}" s' = Some v.
Proof.
  split; [reflexivity|]. split; [reflexivity|]. split; [reflexivity|].
  apply (Dial_relookup_finds_client (E:=Stub.E) "p:r:i" "{k}" (start Stub.E 0));
    reflexivity.
Defined.

(** * The further properties on concrete inputs *)

Lemma other_keys_untouched_witness :
  "k0" <> key_of (OpInit (E:=Stub.E) "b" None None "k1") /\
  lookup_client "k0"
    (after (exec (OpInit (E:=Stub.E) "b" None None "k1") Stub.registered))
  = lookup_client "k0" Stub.registered.
Proof.
  split; [discriminate|].
  apply (other_keys_untouched (OpInit (E:=Stub.E) "b" None None "k1")
           Stub.registered "k0").
  discriminate.
Defined.

Lemma cached_clients_use_fixed_port_witness :
  forallb (fun o => negb (is_InitClient o)) Stub.later_calls = true /\
  lookup_client "k1" (run Stub.later_calls (start Stub.E 0))
  = Some Stub.built_b /\
  Port Stub.built_b = 3307%Z.
Proof.
  split; [reflexivity|]. split; [reflexivity|].
  apply (cached_clients_use_fixed_port (E:=Stub.E) Stub.later_calls 0%nat
           "k1" Stub.built_b); reflexivity.
Defined.

Lemma InitClient_overrides_witness :
  ready Stub.initialised = true /\
  completes [OpInit (E:=Stub.E) "b" None None "k1";
             OpInitClient (E:=Stub.E) Stub.custom "k1"] Stub.initialised
  = true /\
  entries (run [OpInit (E:=Stub.E) "b" None None "k1";
                OpInitClient (E:=Stub.E) Stub.custom "k1"] Stub.initialised)
  = <["k1" := Stub.custom]> (entries Stub.initialised).
Proof.
  split; [reflexivity|].
  apply (InitClient_overrides (OpInit (E:=Stub.E) "b" None None "k1")
           Stub.custom Stub.initialised).
  reflexivity.
Defined.

Lemma InitDefault_outcomes_witness :
  dc_locked (start Stub.E 0) = false /\
  exists s' v,
    InitDefault (E:=Stub.E) tt (start Stub.E 0) = Ret None s' /\
    lookup_client "" s' = Some v /\
    Port v = 3307%Z /\
    Certs v = "https://www.googleapis.com/sql/v1beta4/ambient" /\
    Conns v = None /\ Dialer_ v = None /\
    dc_locked s' = false.
Proof.
  split; [reflexivity|].
  exact (InitDefault_outcomes (E:=Stub.E) tt (start Stub.E 0) eq_refl).
Defined.

Lemma InitFromJson_installs_witness :
  dc_locked (start Stub.E 0) = false /\
  google_JWTConfigFromJSON Stub.E "{k}"
    "https://www.googleapis.com/auth/sqlservice.admin" (world (start Stub.E 0))
  = ("{k}", None, 1%nat) /\
  exists s' v,
    InitFromJson (E:=Stub.E) tt "{k}" (start Stub.E 0) = Ret None s' /\
    lookup_client "{k}" s' = Some v /\
    Port v = 3307%Z /\
    Certs v = "https://www.googleapis.com/sql/v1beta4/{k}" /\
    Conns v = None /\ Dialer_ v = None.
Proof.
  split; [reflexivity|]. split; [reflexivity|].
  exact (InitFromJson_installs (E:=Stub.E) tt "{k}" (start Stub.E 0)
           "{k}" 1%nat eq_refl eq_refl).
Defined.

Lemma lock_free_call_returns_witness :
  dc_locked (start Stub.E 0) = false /\
  ((exists r s',
       exec (OpInitClient (E:=Stub.E) Stub.custom "k1") (start Stub.E 0)
       = Ret r s' /\ dc_locked s' = false) \/
   (exists c k s',
       OpInitClient (E:=Stub.E) Stub.custom "k1" = OpInitClient c k /\
       dc_c (start Stub.E 0) = None /\
       exec (OpInitClient (E:=Stub.E) Stub.custom "k1") (start Stub.E 0)
       = Panic "assignment to entry in nil map" s' /\
       dc_locked s' = true)).
Proof.
  split; [reflexivity|].
  apply (lock_free_call_returns (OpInitClient (E:=Stub.E) Stub.custom "k1")
           (start Stub.E 0)).
  reflexivity.
Defined.

Lemma ready_sequences_complete_witness :
  ready Stub.initialised = true /\
  completes Stub.later_calls Stub.initialised = true /\
  ready (run Stub.later_calls Stub.initialised) = true.
Proof.
  split; [reflexivity|].
  apply (ready_sequences_complete (E:=Stub.E) Stub.later_calls
           Stub.initialised).
  reflexivity.
Defined.

Lemma held_lock_blocks_witness :
  dc_locked Stub.poisoned = true /\
  exec (OpDial (E:=Stub.E) "p:r:i" "{k}") Stub.poisoned = Block Stub.poisoned.
Proof.
  split; [reflexivity|].
  destruct (held_lock_blocks (OpDial (E:=Stub.E) "p:r:i" "{k}") Stub.poisoned
              eq_refl) as (_ & _ & _ & Hb).
  apply Hb. reflexivity.
Defined.

Lemma Dial_makes_InitClient_safe_witness :
  dc_locked (start Stub.E 0) = false /\
  exists r s1,
    Dial (E:=Stub.E) "p:r:i" "bad-json" (start Stub.E 0) = Ret r s1 /\
    forall v k',
    exists s2,
      InitClient v k' s1 = Ret tt s2 /\ lookup_client k' s2 = Some v.
Proof.
  split; [reflexivity|].
  apply (Dial_makes_InitClient_safe (E:=Stub.E) "p:r:i" "bad-json"
           (start Stub.E 0)).
  reflexivity.
Defined.

Lemma Dial_is_InitFromJson_then_Dial_witness :
  dc_locked (start Stub.E 0) = false /\
  lookup_client "{k}" (start Stub.E 0) = None /\
  InitFromJson (E:=Stub.E) tt "{k}" (start Stub.E 0)
  = Ret None Stub.after_json /\
  exists r s2 s2',
    Dial (E:=Stub.E) "p:r:i" "{k}" (start Stub.E 0) = Ret r s2 /\
    Dial (E:=Stub.E) "p:r:i" "{k}" Stub.after_json = Ret r s2' /\
    dc_c s2 = dc_c s2' /\ world s2 = world s2'.
Proof.
  split; [reflexivity|]. split; [reflexivity|]. split; [reflexivity|].
  exact (Dial_is_InitFromJson_then_Dial (E:=Stub.E) "p:r:i" "{k}"
           (start Stub.E 0) None Stub.after_json eq_refl eq_refl eq_refl).
Defined.


Lemma InitDefault_then_Dial_empty_witness :
  InitDefault (E:=Stub.E) tt (start Stub.E 0) = Ret None Stub.after_default /\
  exists v,
    lookup_client "" Stub.after_default = Some v /\
    forall instance,
    exists s2,
      Dial instance "" Stub.after_default
      = Ret (fst (Client_Dial Stub.E v instance (world Stub.after_default)))
            s2 /\
      log s2 = log Stub.after_default ++
               [EvLock; EvMapRead ""; EvUnlock; EvClientDial v instance].
Proof.
  split; [reflexivity|].
  apply (InitDefault_then_Dial_empty (E:=Stub.E) tt (start Stub.E 0)
           Stub.after_default).
  reflexivity.
Defined.

Lemma Dial_keeps_cached_witness :
  lookup_client "k1" Stub.registered = Some Stub.custom /\
  lookup_client "k1" (after (Dial (E:=Stub.E) "p:r:i" "{k}" Stub.registered))
  = Some Stub.custom.
Proof.
  split; [reflexivity|].
  apply (Dial_keeps_cached (E:=Stub.E) "p:r:i" "{k}" Stub.registered "k1"
           Stub.custom).
  reflexivity.
Defined.
